(** * fetch_threat_intel.py: format_threat_summary and main

    Shallow embedding of
    skills/threat-intel-aggregator/scripts/fetch_threat_intel.py.

    - A Python [str] is a sequence of Unicode code points: [pystr := list N].
      Slicing [s[:k]] is [firstn k s]; concatenation is [++].
    - Record values are the JSON-like values the records hold: strings,
      integers and [None].
    - A record (a Python dict with string keys) is a [gmap string pyval];
      [d.get(k, default)] is [dict_get].
    - An uncaught exception is [None] in the [option] result.
    - [datetime.now()] is an explicit clock argument. *)

From Stdlib Require Import NArith ZArith Ascii String List.
From stdpp Require Import base gmap strings list.
Import ListNotations.
Open Scope N_scope.

(* ------------------------------------------------------------------ *)
(** ** Python strings and values *)

Definition pystr := list N.

(** A string literal of the source made of ASCII characters. *)
Definition lit (s : string) : pystr :=
  map (fun a => N_of_ascii a) (list_ascii_of_string s).

(** Non-ASCII code points occurring in the source's literals. *)
Definition RED_CIRCLE : N := 0x1F534.
Definition FIRE : N := 0x1F525.
Definition PUSHPIN : N := 0x1F4CC.
Definition DIRECT_HIT : N := 0x1F3AF.
Definition HIGH_VOLTAGE : N := 0x26A1.
Definition LINK : N := 0x1F517.
Definition NEW_BUTTON : N := 0x1F195.
Definition LIGHT_BULB : N := 0x1F4A1.
Definition SHIELD : N := 0x1F6E1.
Definition VS16 : N := 0xFE0F.

(** Decimal digits, as [str] renders a non-negative integer. *)
Fixpoint uint_digits (u : Decimal.uint) : pystr :=
  match u with
  | Decimal.Nil => []
  | Decimal.D0 u' => 48 :: uint_digits u'
  | Decimal.D1 u' => 49 :: uint_digits u'
  | Decimal.D2 u' => 50 :: uint_digits u'
  | Decimal.D3 u' => 51 :: uint_digits u'
  | Decimal.D4 u' => 52 :: uint_digits u'
  | Decimal.D5 u' => 53 :: uint_digits u'
  | Decimal.D6 u' => 54 :: uint_digits u'
  | Decimal.D7 u' => 55 :: uint_digits u'
  | Decimal.D8 u' => 56 :: uint_digits u'
  | Decimal.D9 u' => 57 :: uint_digits u'
  end.

Definition str_of_nat (n : nat) : pystr := uint_digits (Nat.to_uint n).

Definition str_of_Z (z : Z) : pystr :=
  match z with
  | Z0 => lit "0"
  | Zpos p => uint_digits (Pos.to_uint p)
  | Zneg p => 45 :: uint_digits (Pos.to_uint p)
  end.

Inductive pyval :=
| PStr (s : pystr)
| PInt (z : Z)
| PNone.

(** [str(v)], used by f-string interpolation [{v}]. *)
Definition py_str (v : pyval) : pystr :=
  match v with
  | PStr s => s
  | PInt z => str_of_Z z
  | PNone => lit "None"
  end.

(** Python truthiness ([bool(v)]). *)
Definition truthy (v : pyval) : bool :=
  match v with
  | PStr s => match s with [] => false | _ => true end
  | PInt z => negb (Z.eqb z 0)
  | PNone => false
  end.

(** [v[:k]]: defined on strings; [int] and [None] are not subscriptable
    and raise [TypeError]. *)
Definition py_slice_to (k : nat) (v : pyval) : option pystr :=
  match v with
  | PStr s => Some (firstn k s)
  | _ => None
  end.

Definition dict := gmap string pyval.

(** [d.get(k, default)] *)
Definition dict_get (d : dict) (k : string) (default : pyval) : pyval :=
  match d !! k with
  | Some v => v
  | None => default
  end.

(** [enumerate(xs, start)] *)
Fixpoint enumerate {A} (start : nat) (xs : list A) : list (nat * A) :=
  match xs with
  | [] => []
  | x :: xs' => (start, x) :: enumerate (S start) xs'
  end.

(* ------------------------------------------------------------------ *)
(** ** The clock: [datetime.now().strftime("%Y-%m-%d")] *)

Record clock := { year : nat; month : nat; day : nat }.

Definition zero_pad (w : nat) (s : pystr) : pystr :=
  repeat 48 (w - length s) ++ s.

Definition strftime_Ymd (c : clock) : pystr :=
  zero_pad 4 (str_of_nat (year c)) ++ lit "-" ++
  zero_pad 2 (str_of_nat (month c)) ++ lit "-" ++
  zero_pad 2 (str_of_nat (day c)).

(* ------------------------------------------------------------------ *)
(** ** format_threat_summary *)

Definition NL : N := 10.

(** [d[k]]: raises [KeyError] on an absent key. *)
Definition dict_index (d : dict) (k : string) : option pyval := d !! k.

(** The text of one [output += ...] statement is one chunk; the returned
    string is the concatenation of the chunks in order. *)

Definition header_chunk (date_str : pyval) : pystr :=
  [RED_CIRCLE] ++ lit " **THREAT INTEL SUMMARY - " ++ py_str date_str ++
  lit "**" ++ [NL; NL].

Definition hot_threats_chunk : pystr :=
  [FIRE] ++ lit " **HOT THREATS**" ++ [NL].

Definition threat_title_chunk (i : nat) (threat : dict) : pystr :=
  [NL] ++ str_of_nat i ++ lit ". **" ++
  py_str (dict_get threat "name" (PStr (lit "Unknown"))) ++ lit "** - " ++
  py_str (dict_get threat "severity" (PStr (lit "N/A"))) ++ [NL].

Definition target_chunk (threat : dict) : pystr :=
  lit "   " ++ [PUSHPIN] ++ lit " Target: " ++
  py_str (dict_get threat "target" (PStr (lit "N/A"))) ++ [NL].

Definition vector_chunk (threat : dict) : pystr :=
  lit "   " ++ [DIRECT_HIT] ++ lit " Vector: " ++
  py_str (dict_get threat "vector" (PStr (lit "N/A"))) ++ [NL].

(** The label every IOCs line starts with. *)
Definition iocs_prefix : pystr := lit "   " ++ [HIGH_VOLTAGE] ++ lit " IOCs: ".

Definition iocs_chunk (v : pyval) : pystr := iocs_prefix ++ py_str v ++ [NL].

Definition source_chunk (threat : dict) : pystr :=
  lit "   " ++ [LINK] ++ lit " Source: " ++
  py_str (dict_get threat "url" (PStr (lit "N/A"))) ++ [NL].

(** Body of [for i, threat in enumerate(threats[:5], 1)]. *)
Definition threat_chunks (i : nat) (threat : dict) : option (list pystr) :=
  if truthy (dict_get threat "iocs" PNone) then
    v ← dict_index threat "iocs";
    Some [threat_title_chunk i threat; target_chunk threat; vector_chunk threat;
          iocs_chunk v; source_chunk threat]
  else
    Some [threat_title_chunk i threat; target_chunk threat; vector_chunk threat;
          source_chunk threat].

Definition new_cves_chunk : pystr :=
  [NL; NEW_BUTTON] ++ lit " **NEW CVEs**" ++ [NL].

(** Body of [for cve in cves[:5]]: the f-string evaluates [id], then the
    slice of [desc] (which raises on a non-string), then [cvss]. *)
Definition cve_chunk (cve : dict) : option pystr :=
  let id := py_str (dict_get cve "id" (PStr (lit "N/A"))) in
  d ← py_slice_to 80 (dict_get cve "desc" (PStr (lit "N/A")));
  let cvss := py_str (dict_get cve "cvss" (PStr (lit "N/A"))) in
  Some (lit "- **" ++ id ++ lit "**: " ++ d ++ lit "... (CVSS: " ++ cvss ++
        lit ")" ++ [NL]).

Definition closing_chunk : pystr :=
  [NL; LIGHT_BULB] ++ lit " *Stay safe, update your systems!* " ++ [SHIELD; VS16].

(** [if not date_str: date_str = datetime.now().strftime("%Y-%m-%d")] *)
Definition effective_date (now : clock) (date_str : pyval) : pyval :=
  if negb (truthy date_str) then PStr (strftime_Ymd now) else date_str.

Definition threats_section (threats : list dict) : option (list pystr) :=
  ts ← mapM (fun '(i, t) => threat_chunks i t) (enumerate 1 (firstn 5 threats));
  Some (concat ts).

Definition cves_section (cves : list dict) : option (list pystr) :=
  match cves with
  | [] => Some []
  | _ :: _ =>
      cs ← mapM cve_chunk (firstn 5 cves);
      Some (new_cves_chunk :: cs)
  end.

Definition format_chunks (now : clock) (threats cves : list dict)
    (date_str : pyval) : option (list pystr) :=
  ts ← threats_section threats;
  cs ← cves_section cves;
  Some ([header_chunk (effective_date now date_str); hot_threats_chunk] ++
        ts ++ cs ++ [closing_chunk]).

Definition format_threat_summary (now : clock) (threats cves : list dict)
    (date_str : pyval) : option pystr :=
  match format_chunks now threats cves date_str with
  | Some cs => Some (concat cs)
  | None => None
  end.

(* ------------------------------------------------------------------ *)
(** ** main *)

Definition mk_dict (kvs : list (string * pyval)) : dict := list_to_map kvs.

Definition sample_threats : list dict :=
  [mk_dict [("name", PStr (lit "Example Malware"));
            ("severity", PStr (lit "High"));
            ("target", PStr (lit "Financial Sector"));
            ("vector", PStr (lit "Phishing"));
            ("iocs", PStr (lit "example.com, 192.168.1.1"));
            ("url", PStr (lit "https://example.com/threat"))]].

Definition sample_cves : list dict :=
  [mk_dict [("id", PStr (lit "CVE-2025-1234"));
            ("desc", PStr (lit "Remote code execution vulnerability in example software"));
            ("cvss", PStr (lit "9.8"))]].

(** [print(s)] writes [s] and a newline. *)
Definition print (s : pystr) : pystr := s ++ [NL].

Definition usage_line1 : pystr := lit "Usage: python fetch_threat_intel.py --sample".
Definition usage_line2 : pystr :=
  lit "This is a template script. The agent uses web_search/web_fetch directly.".

(** [main()] run as a script: the text written to standard output and the
    process exit status (an uncaught exception exits with status 1). *)
Definition main (now : clock) (argv : list pystr) : pystr * nat :=
  match argv with
  | _ :: a1 :: _ =>
      if bool_decide (a1 = lit "--sample") then
        match format_threat_summary now sample_threats sample_cves PNone with
        | Some s => (print s, 0%nat)
        | None => ([], 1%nat)
        end
      else (print usage_line1 ++ print usage_line2, 0%nat)
  | _ => (print usage_line1 ++ print usage_line2, 0%nat)
  end.

(** [needle] occurs in [hay] as a contiguous substring. *)
Fixpoint contains (needle hay : pystr) : bool :=
  match hay with
  | [] => bool_decide (needle = [])
  | _ :: hay' => bool_decide (needle `prefix_of` hay) || contains needle hay'
  end.

(** The keys [format_threat_summary] reads from a threat and from a CVE. *)
Definition threat_keys : list string :=
  ["name"; "severity"; "target"; "vector"; "iocs"; "url"].
Definition cve_keys : list string := ["id"; "desc"; "cvss"].

(* ------------------------------------------------------------------ *)
(** ** Auxiliary predicates and sample inputs of the proofs *)

(** The code point of the section header's emoji occurs nowhere in a
    rendered text. *)
Definition no_new_button (l : pystr) : Prop := NEW_BUTTON ∉ l.

#[global] Instance no_new_button_dec (l : pystr) : Decision (no_new_button l).
Proof. unfold no_new_button. apply _. Defined.

Definition values_without_new_button (t : dict) : Prop :=
  map_Forall (fun _ v => no_new_button (py_str v)) t.

#[global] Instance values_without_new_button_dec (t : dict) :
  Decision (values_without_new_button t).
Proof. unfold values_without_new_button. apply _. Defined.

(** The records whose [desc] can be sliced: absent or a string. *)
Definition desc_sliceable (cve : dict) : bool :=
  match cve !! "desc" with
  | Some (PStr _) | None => true
  | Some _ => false
  end.

Definition date_2025 : pyval := PStr (lit "2025-01-01").
Definition clock_2025 : clock := {| year := 2025; month := 1; day := 1 |}.

(* ------------------------------------------------------------------ *)
(** * Properties *)

Close Scope N_scope.

(** ** Helper lemmas *)

Lemma enumerate_zip {A} (start : nat) (xs : list A) :
  enumerate start xs = zip (seq start (length xs)) xs.
Proof.
  revert start; induction xs as [|x xs IH]; intros start; [done|].
  cbn. by rewrite IH.
Qed.

Lemma firstn_min_length {A} (n : nat) (l : list A) :
  firstn n l = firstn (Nat.min n (length l)) l.
Proof.
  destruct (Nat.le_ge_cases n (length l)) as [Hle|Hge].
  - by rewrite Nat.min_l.
  - rewrite Nat.min_r by done. rewrite !firstn_all2; done.
Qed.

(** Two chunks whose leading code points differ: neither is a prefix of
    the other's text. *)
Ltac not_prefix :=
  let k := fresh "k" in let Hk := fresh "Hk" in
  intros [k Hk];
  unfold threat_title_chunk, target_chunk, vector_chunk, source_chunk,
    iocs_chunk, iocs_prefix, new_cves_chunk, header_chunk, hot_threats_chunk,
    closing_chunk in *;
  vm_compute in Hk; congruence.

Lemma threat_chunks_falsy (i : nat) (threat : dict) :
  truthy (dict_get threat "iocs" PNone) = false ->
  threat_chunks i threat =
    Some [threat_title_chunk i threat; target_chunk threat;
          vector_chunk threat; source_chunk threat].
Proof. intros H. unfold threat_chunks. by rewrite H. Qed.

Lemma threat_chunks_truthy (i : nat) (threat : dict) (v : pyval) :
  threat !! "iocs" = Some v -> truthy v = true ->
  threat_chunks i threat =
    Some [threat_title_chunk i threat; target_chunk threat;
          vector_chunk threat; iocs_chunk v; source_chunk threat].
Proof.
  intros Hv Ht. unfold threat_chunks, dict_get, dict_index.
  rewrite Hv, Ht. done.
Qed.

Lemma title_not_iocs i t : ~ iocs_prefix `prefix_of` threat_title_chunk i t.
Proof. not_prefix. Qed.
Lemma target_not_iocs t : ~ iocs_prefix `prefix_of` target_chunk t.
Proof. not_prefix. Qed.
Lemma vector_not_iocs t : ~ iocs_prefix `prefix_of` vector_chunk t.
Proof. not_prefix. Qed.
Lemma source_not_iocs t : ~ iocs_prefix `prefix_of` source_chunk t.
Proof. not_prefix. Qed.
Lemma iocs_chunk_iocs v : iocs_prefix `prefix_of` iocs_chunk v.
Proof. unfold iocs_chunk. by exists (py_str v ++ [NL]). Qed.

(** ** CVE lines *)

(** C1: for a CVE record whose [desc] is a string of length [L], the CVE
    line shows the first [min(80, L)] characters of it followed by the
    literal ["..."], whatever [L] is (also when [L < 80]). *)
Theorem cve_desc_truncated (cve : dict) (s : pystr)
    (Hdesc : cve !! "desc" = Some (PStr s)) :
  cve_chunk cve =
    Some (lit "- **" ++ py_str (dict_get cve "id" (PStr (lit "N/A"))) ++
          lit "**: " ++ firstn (Nat.min 80 (length s)) s ++
          lit "... (CVSS: " ++ py_str (dict_get cve "cvss" (PStr (lit "N/A"))) ++
          lit ")" ++ [NL]) /\
  length (firstn (Nat.min 80 (length s)) s) = Nat.min 80 (length s).
Proof.
  split.
  - rewrite <- (firstn_min_length 80 s).
    unfold cve_chunk, dict_get. rewrite Hdesc. reflexivity.
  - rewrite length_firstn. lia.
Qed.

Lemma cve_desc_truncated_witness :
  let c := mk_dict [("id", PStr (lit "CVE-1")); ("desc", PStr (lit "short"))] in
  c !! "desc" = Some (PStr (lit "short")) /\
  cve_chunk c =
    Some (lit "- **" ++ py_str (dict_get c "id" (PStr (lit "N/A"))) ++
          lit "**: " ++ firstn (Nat.min 80 (length (lit "short"))) (lit "short") ++
          lit "... (CVSS: " ++ py_str (dict_get c "cvss" (PStr (lit "N/A"))) ++
          lit ")" ++ [NL]) /\
  length (firstn (Nat.min 80 (length (lit "short"))) (lit "short")) =
    Nat.min 80 (length (lit "short")).
Proof.
  intros c. assert (H : c !! "desc" = Some (PStr (lit "short"))) by reflexivity.
  split; [exact H | exact (cve_desc_truncated c (lit "short") H)].
Defined.

(** C10: a CVE record without a [desc] key shows the default ["N/A"]
    followed by the ellipsis, i.e. the text ["N/A..."]. *)
Theorem cve_missing_desc (cve : dict) (Hdesc : cve !! "desc" = None) :
  cve_chunk cve =
    Some (lit "- **" ++ py_str (dict_get cve "id" (PStr (lit "N/A"))) ++
          lit "**: N/A... (CVSS: " ++
          py_str (dict_get cve "cvss" (PStr (lit "N/A"))) ++ lit ")" ++ [NL]).
Proof.
  unfold cve_chunk, dict_get. rewrite Hdesc. reflexivity.
Qed.

Lemma cve_missing_desc_witness :
  let c := mk_dict [("id", PStr (lit "CVE-1")); ("cvss", PInt 7)] in
  c !! "desc" = None /\
  cve_chunk c =
    Some (lit "- **" ++ py_str (dict_get c "id" (PStr (lit "N/A"))) ++
          lit "**: N/A... (CVSS: " ++
          py_str (dict_get c "cvss" (PStr (lit "N/A"))) ++ lit ")" ++ [NL]).
Proof.
  intros c. assert (H : c !! "desc" = None) by reflexivity.
  split; [exact H | exact (cve_missing_desc c H)].
Defined.

(** ** Threat entries *)

(** C4: the entry of a threat has an IOCs line (a chunk starting with the
    IOCs label) iff [threat.get('iocs')] is truthy: none when the key is
    absent or its value falsy; exactly one, [iocs_chunk v] holding the
    value [v], when it is present and truthy. *)
Theorem threat_iocs_line_iff (i : nat) (threat : dict) :
  (truthy (dict_get threat "iocs" PNone) = false ->
     exists cs, threat_chunks i threat = Some cs /\
       filter (fun c => iocs_prefix `prefix_of` c) cs = []) /\
  (forall v, threat !! "iocs" = Some v -> truthy v = true ->
     exists cs, threat_chunks i threat = Some cs /\
       filter (fun c => iocs_prefix `prefix_of` c) cs = [iocs_chunk v] /\
       iocs_chunk v = iocs_prefix ++ py_str v ++ [NL]).
Proof.
  split.
  - intros H. eexists; split; [by apply threat_chunks_falsy|].
    rewrite !filter_cons_False; try done.
    + apply source_not_iocs.
    + apply vector_not_iocs.
    + apply target_not_iocs.
    + apply title_not_iocs.
  - intros v Hv Ht. eexists; split; [by apply threat_chunks_truthy|].
    split; [|done].
    rewrite filter_cons_False; [|apply title_not_iocs].
    rewrite filter_cons_False; [|apply target_not_iocs].
    rewrite filter_cons_False; [|apply vector_not_iocs].
    rewrite filter_cons_True; [|apply iocs_chunk_iocs].
    rewrite filter_cons_False; [done|apply source_not_iocs].
Qed.

(** C5: defaults of a threat entry. A missing [name] renders as
    ["Unknown"], a missing [severity], [target], [vector] or [url] as
    ["N/A"]; on [format_summary([{"name":"X"}], [], "2025-01-01")] the
    threats section is exactly the line ["1. **X** - N/A"] and the target,
    vector and source lines with ["N/A"], with no IOCs line. *)
Theorem threat_defaults (i : nat) (threat : dict) :
  (threat !! "name" = None ->
     threat_title_chunk i threat =
       [NL] ++ str_of_nat i ++ lit ". **Unknown** - " ++
       py_str (dict_get threat "severity" (PStr (lit "N/A"))) ++ [NL]) /\
  (threat !! "severity" = None ->
     threat_title_chunk i threat =
       [NL] ++ str_of_nat i ++ lit ". **" ++
       py_str (dict_get threat "name" (PStr (lit "Unknown"))) ++
       lit "** - N/A" ++ [NL]) /\
  (threat !! "target" = None ->
     target_chunk threat = lit "   " ++ [PUSHPIN] ++ lit " Target: N/A" ++ [NL]) /\
  (threat !! "vector" = None ->
     vector_chunk threat = lit "   " ++ [DIRECT_HIT] ++ lit " Vector: N/A" ++ [NL]) /\
  (threat !! "url" = None ->
     source_chunk threat = lit "   " ++ [LINK] ++ lit " Source: N/A" ++ [NL]) /\
  threats_section [mk_dict [("name", PStr (lit "X"))]] =
    Some [[NL] ++ lit "1. **X** - N/A" ++ [NL];
          lit "   " ++ [PUSHPIN] ++ lit " Target: N/A" ++ [NL];
          lit "   " ++ [DIRECT_HIT] ++ lit " Vector: N/A" ++ [NL];
          lit "   " ++ [LINK] ++ lit " Source: N/A" ++ [NL]].
Proof.
  unfold threat_title_chunk, target_chunk, vector_chunk, source_chunk, dict_get.
  split; [intros H; by rewrite H|].
  split; [intros H; by rewrite H|].
  split; [intros H; by rewrite H|].
  split; [intros H; by rewrite H|].
  split; [intros H; by rewrite H|].
  vm_compute. reflexivity.
Qed.

(** ** The threats section *)

Lemma threat_chunks_some (i : nat) (threat : dict) :
  exists b, threat_chunks i threat = Some b /\
            head b = Some (threat_title_chunk i threat).
Proof.
  destruct (truthy (dict_get threat "iocs" PNone)) eqn:Ht.
  - unfold dict_get in Ht. destruct (threat !! "iocs") as [v|] eqn:Hv; [|done].
    eexists; split; [by apply threat_chunks_truthy|done].
  - eexists; split; [by apply threat_chunks_falsy|done].
Qed.

Lemma mapM_total {A B} (f : A -> option B) (P : A -> B -> Prop) :
  (forall x, exists y, f x = Some y /\ P x y) ->
  forall l, exists ys, mapM f l = Some ys /\ Forall2 P l ys.
Proof.
  intros Hf l. induction l as [|x l IH].
  - exists []. split; [done|constructor].
  - destruct (Hf x) as (y & Hy & HP). destruct IH as (ys & Hys & HPs).
    exists (y :: ys). split; [|by constructor].
    cbn. rewrite Hy. cbn. rewrite Hys. done.
Qed.

(** C3: only the first 5 threats are rendered, in input order; the
    [j]-th rendered block belongs to the [j]-th record and starts with its
    title line numbered [j], for [j = 1 .. min(5, len(threats))]. *)
Theorem threats_first_five_numbered (threats : list dict) :
  exists blocks,
    threats_section threats = Some (concat blocks) /\
    Forall2 (fun '(i, t) b =>
               threat_chunks i t = Some b /\
               head b = Some (threat_title_chunk i t))
      (zip (seq 1 (Nat.min 5 (length threats))) (firstn 5 threats)) blocks.
Proof.
  destruct (mapM_total (fun '(i, t) => threat_chunks i t)
              (fun '(i, t) b => threat_chunks i t = Some b /\
                                head b = Some (threat_title_chunk i t))
              ltac:(intros [i t]; destruct (threat_chunks_some i t) as (b & Hb & Hh);
                     exists b; auto)
              (enumerate 1 (firstn 5 threats))) as (blocks & Hm & HF).
  exists blocks. rewrite enumerate_zip, length_firstn in Hm, HF.
  split; [|done].
  unfold threats_section. rewrite enumerate_zip, length_firstn, Hm. done.
Qed.

(** ** The CVE section *)

Lemma title_ne_new_cves i t : threat_title_chunk i t <> new_cves_chunk.
Proof.
  unfold threat_title_chunk, str_of_nat.
  destruct (Nat.to_uint i); intros Heq; unfold new_cves_chunk in Heq;
    vm_compute in Heq; congruence.
Qed.

Lemma fixed_ne_new_cves t v :
  target_chunk t <> new_cves_chunk /\ vector_chunk t <> new_cves_chunk /\
  iocs_chunk v <> new_cves_chunk /\ source_chunk t <> new_cves_chunk /\
  hot_threats_chunk <> new_cves_chunk /\ closing_chunk <> new_cves_chunk.
Proof.
  unfold target_chunk, vector_chunk, iocs_chunk, iocs_prefix, source_chunk,
    hot_threats_chunk, closing_chunk, new_cves_chunk.
  repeat split; intros Heq; vm_compute in Heq; congruence.
Qed.

Lemma header_ne_new_cves d : header_chunk d <> new_cves_chunk.
Proof.
  unfold header_chunk, new_cves_chunk. intros Heq. vm_compute in Heq. congruence.
Qed.

Lemma threat_chunks_no_new_cves i t b :
  threat_chunks i t = Some b -> Forall (fun c => c <> new_cves_chunk) b.
Proof.
  destruct (fixed_ne_new_cves t (dict_get t "iocs" PNone)) as (H1 & H2 & _ & H4 & _).
  unfold threat_chunks.
  destruct (truthy (dict_get t "iocs" PNone)).
  - unfold dict_index. destruct (t !! "iocs") as [v|]; [|done].
    destruct (fixed_ne_new_cves t v) as (_ & _ & H3 & _).
    intros [= <-]. repeat constructor; auto using title_ne_new_cves.
  - intros [= <-]. repeat constructor; auto using title_ne_new_cves.
Qed.

Lemma Forall2_Some_Forall_r {A B} (f : A -> option B) (Q : B -> Prop) l ys :
  (forall x y, f x = Some y -> Q y) ->
  Forall2 (fun x y => f x = Some y) l ys -> Forall Q ys.
Proof. intros Hf H. induction H; constructor; eauto. Qed.

Lemma nb_nil : no_new_button [].
Proof. unfold no_new_button. set_solver. Qed.

Lemma nb_app a b : no_new_button a -> no_new_button b -> no_new_button (a ++ b).
Proof. unfold no_new_button. rewrite elem_of_app. tauto. Qed.

Lemma nb_cons x l : x <> NEW_BUTTON -> no_new_button l -> no_new_button (x :: l).
Proof. unfold no_new_button. rewrite elem_of_cons. intros Hx Hl [Heq|Hin]; auto. Qed.

Lemma nb_lit s : no_new_button (lit s).
Proof.
  induction s as [|a s IH]; [apply nb_nil|].
  apply nb_cons; [|exact IH].
  pose proof (N_ascii_bounded a) as Hb. cbv beta. intros Heq.
  rewrite Heq in Hb. vm_compute in Hb. discriminate.
Qed.

Lemma nb_digits u : no_new_button (uint_digits u).
Proof.
  induction u; cbn [uint_digits]; try apply nb_nil; apply nb_cons; try done;
    discriminate.
Qed.

Lemma nb_repeat n : no_new_button (repeat 48%N n).
Proof. induction n; [apply nb_nil|]. apply nb_cons; [discriminate|done]. Qed.

Ltac solve_nb :=
  repeat match goal with
  | |- no_new_button (lit _) => apply nb_lit
  | |- no_new_button (uint_digits _) => apply nb_digits
  | |- no_new_button (repeat _ _) => apply nb_repeat
  | |- no_new_button (str_of_nat _) => apply nb_digits
  | |- no_new_button (_ ++ _) => apply nb_app
  | |- no_new_button (_ :: _) => apply nb_cons; [discriminate|]
  | |- no_new_button [] => apply nb_nil
  end.

Lemma nb_get t k s :
  values_without_new_button t -> no_new_button (py_str (dict_get t k (PStr (lit s)))).
Proof.
  intros Ht. unfold dict_get. destruct (t !! k) as [v|] eqn:Hk.
  - exact (Ht k v Hk).
  - apply nb_lit.
Qed.

Lemma nb_threat_chunks i t b :
  values_without_new_button t -> threat_chunks i t = Some b ->
  Forall no_new_button b.
Proof.
  intros Ht. unfold threat_chunks, threat_title_chunk, target_chunk,
    vector_chunk, source_chunk, iocs_chunk, iocs_prefix.
  assert (Hg : forall k s, no_new_button (py_str (dict_get t k (PStr (lit s)))))
    by (intros; by apply nb_get).
  destruct (truthy _).
  - unfold dict_index. destruct (t !! "iocs") as [v|] eqn:Hv; [|done].
    pose proof (Ht "iocs" v Hv) as Hiv.
    intros [= <-]. repeat constructor; solve_nb; auto.
  - intros [= <-]. repeat constructor; solve_nb; auto.
Qed.

(** C2: the CVE section. With no CVEs the ["NEW CVEs"] header is never
    emitted, and the header's text (its emoji code point) occurs nowhere in
    the output string unless the caller's threat values or date carry it;
    with some CVEs, the output is the header followed by the lines of
    exactly the first 5 CVEs, in order, then the closing line. *)
Theorem cves_first_five_or_omitted (now : clock) (threats cves : list dict)
    (date_str : pyval) (out : list pystr)
    (H : format_chunks now threats cves date_str = Some out) :
  (cves = [] -> new_cves_chunk ∉ out) /\
  (cves = [] -> Forall values_without_new_button threats ->
     no_new_button (py_str date_str) -> no_new_button (concat out)) /\
  (cves <> [] -> exists pre cs,
     mapM cve_chunk (firstn 5 cves) = Some cs /\
     out = pre ++ new_cves_chunk :: cs ++ [closing_chunk]).
Proof.
  unfold format_chunks in H.
  destruct (threats_section threats) as [ts|] eqn:Hts; [|done].
  cbn [mbind option_bind] in H.
  destruct (cves_section cves) as [cs|] eqn:Hcs; [|done].
  cbn [mbind option_bind] in H.
  injection H as <-.
  split; [|split].
  - intros ->. injection Hcs as <-. intros Hin.
    enough (HF : Forall (fun c => c <> new_cves_chunk)
                   ([header_chunk (effective_date now date_str); hot_threats_chunk] ++
                    ts ++ [] ++ [closing_chunk])).
    { rewrite Forall_forall in HF. exact (HF _ Hin eq_refl). }
    unfold threats_section in Hts.
    destruct (mapM _ _) as [blocks|] eqn:Hm; [|done]. injection Hts as <-.
    apply mapM_Some_1 in Hm.
    destruct (fixed_ne_new_cves (∅ : dict) PNone) as (_ & _ & _ & _ & Hhot & Hcl).
    constructor; [apply header_ne_new_cves|].
    constructor; [done|].
    apply Forall_app; split; [|by repeat constructor].
    apply Forall_concat.
    eapply (Forall2_Some_Forall_r _ _ _ _ _ Hm).
    Unshelve. intros [i t] b. apply threat_chunks_no_new_cves.
  - intros -> Hthr Hdate. injection Hcs as <-.
    unfold threats_section in Hts.
    destruct (mapM _ _) as [blocks|] eqn:Hm; [|done]. injection Hts as <-.
    apply mapM_Some_1 in Hm.
    rewrite enumerate_zip in Hm.
    assert (Hb : Forall (Forall no_new_button) blocks).
    { assert (Hthr5 : Forall values_without_new_button (firstn 5 threats))
        by (rewrite <- (take_drop 5 threats), Forall_app in Hthr; tauto).
      revert Hm Hthr5. generalize (firstn 5 threats) as l. intros l.
      generalize 1%nat as i. revert blocks.
      induction l as [|t l IH]; intros blocks i Hm Hl;
        inversion Hm as [|? b ? bs Hhd Htl]; subst; [constructor|].
      inversion Hl; subst. constructor.
      - eapply nb_threat_chunks; eauto.
      - eapply IH; eauto. }
    assert (Hall : Forall no_new_button
              ([header_chunk (effective_date now date_str); hot_threats_chunk] ++
               concat blocks ++ [] ++ [closing_chunk])).
    { constructor.
      - unfold header_chunk, effective_date, strftime_Ymd, zero_pad.
        destruct (truthy date_str); cbn [negb py_str]; solve_nb; done.
      - constructor; [unfold hot_threats_chunk; solve_nb|].
        apply Forall_app; split; [by apply Forall_concat|].
        repeat constructor. unfold closing_chunk. solve_nb. }
    assert (Hc : forall l, Forall no_new_button l -> no_new_button (concat l)).
    { induction l as [|c l IH]; intros Hl; [apply nb_nil|].
      inversion Hl; subst. cbn [concat]. apply nb_app; auto. }
    exact (Hc _ Hall).
  - intros Hne. destruct cves as [|c cves']; [done|].
    unfold cves_section in Hcs.
    destruct (mapM cve_chunk (firstn 5 (c :: cves'))) as [cl|] eqn:Hm; [|done].
    injection Hcs as <-.
    exists ([header_chunk (effective_date now date_str); hot_threats_chunk] ++ ts), cl.
    split; [done|]. by rewrite <- !app_assoc.
Qed.

(** ** Totality *)

Lemma format_chunks_split (now : clock) (threats cves : list dict)
    (date_str : pyval) ts cs :
  threats_section threats = Some ts -> cves_section cves = Some cs ->
  format_chunks now threats cves date_str =
    Some ([header_chunk (effective_date now date_str); hot_threats_chunk] ++
          ts ++ cs ++ [closing_chunk]).
Proof. intros H1 H2. unfold format_chunks. by rewrite H1, H2. Qed.

Lemma threats_section_some threats : exists ts, threats_section threats = Some ts.
Proof.
  destruct (threats_first_five_numbered threats) as (b & Hb & _). by exists (concat b).
Qed.

Lemma cve_chunk_sliceable c :
  desc_sliceable c = true -> exists l, cve_chunk c = Some l.
Proof.
  unfold desc_sliceable, cve_chunk, dict_get.
  destruct (c !! "desc") as [[s| |]|]; intros H; try discriminate; eexists; done.
Qed.

(** C6, as stated: every pair of sequences of records, whatever keys they
    miss and whatever values they hold, is formatted without an exception.
    A CVE whose [desc] is an integer refutes it: the slice [[:80]] raises
    [TypeError]. *)
Lemma format_total_counterexample :
  ~ (forall now threats cves date_str,
       exists s, format_threat_summary now threats cves date_str = Some s).
Proof.
  intros H.
  destruct (H {| year := 2025; month := 1; day := 1 |} []
              [mk_dict [("desc", PInt 5)]] PNone) as [s Hs].
  vm_compute in Hs. discriminate.
Qed.

(** C6, amended: whatever keys the records miss, [format_threat_summary]
    returns a string as long as the [desc] of each of the first 5 CVEs is
    absent or a string. *)
Theorem format_total_sliceable (now : clock) (threats cves : list dict)
    (date_str : pyval)
    (Hdesc : forallb desc_sliceable (firstn 5 cves) = true) :
  exists s, format_threat_summary now threats cves date_str = Some s.
Proof.
  destruct (threats_section_some threats) as [ts Hts].
  assert (Hcs : exists cs, cves_section cves = Some cs).
  { destruct cves as [|c cves']; [by exists []|].
    unfold cves_section.
    assert (Hm : exists l, mapM cve_chunk (firstn 5 (c :: cves')) = Some l).
    { rewrite forallb_forall in Hdesc.
      induction (firstn 5 (c :: cves')) as [|x l IH]; [by exists []|].
      destruct (cve_chunk_sliceable x) as [y Hy].
      { apply Hdesc. by left. }
      destruct IH as [l' Hl'].
      { intros z Hz. apply Hdesc. by right. }
      exists (y :: l'). cbn. by rewrite Hy, Hl'. }
    destruct Hm as [l Hl]. rewrite Hl. by eexists. }
  destruct Hcs as [cs Hcs].
  unfold format_threat_summary.
  rewrite (format_chunks_split now threats cves date_str ts cs Hts Hcs).
  by eexists.
Qed.

Lemma format_total_sliceable_witness :
  forallb desc_sliceable (firstn 5 sample_cves) = true /\
  exists s, format_threat_summary {| year := 2025; month := 1; day := 1 |}
              sample_threats sample_cves PNone = Some s.
Proof.
  assert (H : forallb desc_sliceable (firstn 5 sample_cves) = true) by reflexivity.
  split; [exact H|].
  exact (format_total_sliceable {| year := 2025; month := 1; day := 1 |}
           sample_threats sample_cves PNone H).
Defined.

(** ** The date *)

Lemma format_chunks_date (now : clock) threats cves d1 d2 :
  effective_date now d1 = effective_date now d2 ->
  format_chunks now threats cves d1 = format_chunks now threats cves d2.
Proof. intros H. unfold format_chunks. by rewrite H. Qed.

(** C9: a provided but falsy [date_str] (such as [""]) is discarded: the
    result is the one of a call without a date, i.e. with the current
    date in the header. *)
Theorem falsy_date_is_no_date (now : clock) (threats cves : list dict)
    (date_str : pyval) (Hfalsy : truthy date_str = false) :
  format_threat_summary now threats cves date_str =
  format_threat_summary now threats cves PNone.
Proof.
  unfold format_threat_summary.
  rewrite (format_chunks_date now threats cves date_str PNone); [done|].
  unfold effective_date. by rewrite Hfalsy.
Qed.

Lemma falsy_date_is_no_date_witness :
  truthy (PStr []) = false /\
  format_threat_summary {| year := 2025; month := 1; day := 1 |} [] []
    (PStr []) =
  format_threat_summary {| year := 2025; month := 1; day := 1 |} [] [] PNone.
Proof.
  assert (H : truthy (PStr []) = false) by reflexivity.
  split; [exact H|].
  exact (falsy_date_is_no_date {| year := 2025; month := 1; day := 1 |}
           [] [] (PStr []) H).
Defined.

(** C8, as stated: once a date string is supplied, the result no longer
    depends on the clock. The supplied empty string refutes it: it is
    replaced by the clock's date. *)
Lemma supplied_date_deterministic_counterexample :
  ~ (forall now1 now2 threats cves date_str,
       date_str <> PNone ->
       format_threat_summary now1 threats cves date_str =
       format_threat_summary now2 threats cves date_str).
Proof.
  intros H.
  specialize (H {| year := 2025; month := 1; day := 1 |}
                {| year := 2025; month := 1; day := 2 |} [] [] (PStr [])
                ltac:(discriminate)).
  vm_compute in H. congruence.
Qed.

(** C8, amended: without a date, or with a falsy one such as [""] (the
    default [None] is falsy too), the header carries the clock's date as
    [strftime("%Y-%m-%d")] renders it; with a truthy
    (non-empty) date the result does not depend on the clock. *)
Theorem header_date_and_determinism (now1 now2 : clock)
    (threats cves : list dict) (date_str : pyval) :
  (forall d out, truthy d = false ->
     format_chunks now1 threats cves d = Some out ->
     head out = Some (header_chunk (PStr (strftime_Ymd now1)))) /\
  (truthy date_str = true ->
     format_threat_summary now1 threats cves date_str =
     format_threat_summary now2 threats cves date_str).
Proof.
  split.
  - intros d out Hd H. unfold format_chunks in H.
    destruct (threats_section threats); [|done]. cbn [mbind option_bind] in H.
    destruct (cves_section cves); [|done]. cbn [mbind option_bind] in H.
    injection H as <-. cbn [head]. unfold effective_date. by rewrite Hd.
  - intros Ht. unfold format_threat_summary, format_chunks, effective_date.
    by rewrite Ht.
Qed.

Lemma header_date_and_determinism_witness :
  truthy (PStr []) = false /\
  format_chunks {| year := 2025; month := 1; day := 1 |} [] [] (PStr []) =
    Some [header_chunk (PStr (strftime_Ymd {| year := 2025; month := 1; day := 1 |}));
          hot_threats_chunk; closing_chunk] /\
  head [header_chunk (PStr (strftime_Ymd {| year := 2025; month := 1; day := 1 |}));
        hot_threats_chunk; closing_chunk] =
    Some (header_chunk (PStr (strftime_Ymd {| year := 2025; month := 1; day := 1 |}))) /\
  truthy (PStr (lit "2025-01-01")) = true /\
  format_threat_summary {| year := 2025; month := 1; day := 1 |} [] []
    (PStr (lit "2025-01-01")) =
  format_threat_summary {| year := 1999; month := 12; day := 31 |} [] []
    (PStr (lit "2025-01-01")).
Proof.
  assert (He : truthy (PStr []) = false) by reflexivity.
  assert (Hf : format_chunks {| year := 2025; month := 1; day := 1 |} [] [] (PStr []) =
    Some [header_chunk (PStr (strftime_Ymd {| year := 2025; month := 1; day := 1 |}));
          hot_threats_chunk; closing_chunk]) by (vm_compute; reflexivity).
  split; [exact He|]. split; [exact Hf|].
  split; [exact (proj1 (header_date_and_determinism
                          {| year := 2025; month := 1; day := 1 |}
                          {| year := 1999; month := 12; day := 31 |} [] []
                          PNone) (PStr []) _ He Hf)|].
  assert (H : truthy (PStr (lit "2025-01-01")) = true) by reflexivity.
  split; [exact H|].
  exact (proj2 (header_date_and_determinism
                  {| year := 2025; month := 1; day := 1 |}
                  {| year := 1999; month := 12; day := 31 |} [] []
                  (PStr (lit "2025-01-01"))) H).
Defined.

(** ** The entry point *)

Lemma contains_nil (hay : pystr) : contains [] hay = true.
Proof.
  destruct hay; cbn; [done|].
  rewrite bool_decide_eq_true_2; [done|]. apply prefix_nil.
Qed.

Lemma contains_app_r (needle a b : pystr) :
  contains needle b = true -> contains needle (a ++ b) = true.
Proof.
  intros H. induction a as [|c a IH]; [done|].
  cbn. rewrite IH. apply orb_true_r.
Qed.

Lemma contains_app_l (needle a b : pystr) :
  contains needle a = true -> contains needle (a ++ b) = true.
Proof.
  induction a as [|c a IH]; cbn; intros H.
  - apply bool_decide_eq_true_1 in H. subst. apply contains_nil.
  - apply orb_true_iff in H as [H|H].
    + apply bool_decide_eq_true_1 in H.
      rewrite bool_decide_eq_true_2; [done|].
      change (c :: a ++ b) with ((c :: a) ++ b). by apply prefix_app_r.
    + rewrite IH by done. apply orb_true_r.
Qed.

(** C7: [--sample] prints the summary of the two sample records, which
    mentions ["Example Malware"], ["CVE-2025-1234"] and the closing safety
    line, and exits with 0; without a first argument, or with another one,
    it prints exactly the two usage lines and exits with 0. *)
Theorem main_sample_or_usage (now : clock) (argv : list pystr) :
  (forall prog rest, argv = prog :: lit "--sample" :: rest ->
     exists out, main now argv = (out, 0) /\
       contains (lit "Example Malware") out = true /\
       contains (lit "CVE-2025-1234") out = true /\
       contains closing_chunk out = true) /\
  (match argv with _ :: a1 :: _ => a1 <> lit "--sample" | _ => True end ->
     main now argv = (print usage_line1 ++ print usage_line2, 0)).
Proof.
  split.
  - intros prog rest ->.
    destruct (threats_section sample_threats) as [ts|] eqn:Hts;
      [|vm_compute in Hts; discriminate].
    destruct (cves_section sample_cves) as [cs|] eqn:Hcs;
      [|vm_compute in Hcs; discriminate].
    unfold main. rewrite bool_decide_eq_true_2 by done.
    unfold format_threat_summary.
    rewrite (format_chunks_split now _ _ PNone ts cs Hts Hcs).
    vm_compute in Hts, Hcs. injection Hts as <-. injection Hcs as <-.
    eexists. split; [reflexivity|].
    unfold print. cbn [app concat].
    split; [|split]; apply contains_app_l, contains_app_r; vm_compute; reflexivity.
  - destruct argv as [|p [|a1 rest]]; [done|done|].
    intros Hne. unfold main. by rewrite bool_decide_eq_false_2.
Qed.

Lemma main_sample_or_usage_witness :
  main {| year := 2025; month := 1; day := 1 |} [lit "fetch_threat_intel.py"] =
    (print usage_line1 ++ print usage_line2, 0) /\
  exists out,
    main {| year := 2025; month := 1; day := 1 |}
      [lit "fetch_threat_intel.py"; lit "--sample"] = (out, 0) /\
    contains (lit "Example Malware") out = true /\
    contains (lit "CVE-2025-1234") out = true /\
    contains closing_chunk out = true.
Proof.
  split.
  - exact (proj2 (main_sample_or_usage {| year := 2025; month := 1; day := 1 |}
                    [lit "fetch_threat_intel.py"]) I).
  - exact (proj1 (main_sample_or_usage {| year := 2025; month := 1; day := 1 |}
                    [lit "fetch_threat_intel.py"; lit "--sample"])
             (lit "fetch_threat_intel.py") [] eq_refl).
Defined.

(** ** Witnesses of the theorems with hypotheses *)

Lemma cves_first_five_or_omitted_witness :
  let out := match format_chunks clock_2025 sample_threats [] date_2025 with
             | Some o => o | None => [] end in
  format_chunks clock_2025 sample_threats [] date_2025 = Some out /\
  (new_cves_chunk ∉ out) /\
  Forall values_without_new_button sample_threats /\
  no_new_button (py_str date_2025) /\ no_new_button (concat out).
Proof.
  intros out.
  assert (H : format_chunks clock_2025 sample_threats [] date_2025 = Some out)
    by (vm_compute; reflexivity).
  destruct (cves_first_five_or_omitted clock_2025 sample_threats [] date_2025
              out H) as (H1 & H2 & _).
  assert (Hv : Forall values_without_new_button sample_threats).
  { apply (bool_decide_unpack _). vm_compute. reflexivity. }
  assert (Hd : no_new_button (py_str date_2025)) by apply nb_lit.
  split; [exact H|].
  split; [exact (H1 eq_refl)|].
  split; [exact Hv|]. split; [exact Hd|].
  exact (H2 eq_refl Hv Hd).
Defined.

Lemma threat_iocs_line_iff_witness :
  let t := match sample_threats with t :: _ => t | [] => ∅ end in
  t !! "iocs" = Some (PStr (lit "example.com, 192.168.1.1")) /\
  truthy (PStr (lit "example.com, 192.168.1.1")) = true /\
  exists cs, threat_chunks 1 t = Some cs /\
    filter (fun c => iocs_prefix `prefix_of` c) cs =
      [iocs_chunk (PStr (lit "example.com, 192.168.1.1"))] /\
    iocs_chunk (PStr (lit "example.com, 192.168.1.1")) =
      iocs_prefix ++ lit "example.com, 192.168.1.1" ++ [NL].
Proof.
  intros t.
  assert (Hv : t !! "iocs" = Some (PStr (lit "example.com, 192.168.1.1")))
    by reflexivity.
  assert (Ht : truthy (PStr (lit "example.com, 192.168.1.1")) = true)
    by reflexivity.
  split; [exact Hv|]. split; [exact Ht|].
  exact (proj2 (threat_iocs_line_iff 1 t) _ Hv Ht).
Defined.

Lemma threat_defaults_witness :
  let t := mk_dict [("severity", PStr (lit "High"))] in
  t !! "name" = None /\
  threat_title_chunk 2 t =
    [NL] ++ str_of_nat 2 ++ lit ". **Unknown** - " ++
    py_str (dict_get t "severity" (PStr (lit "N/A"))) ++ [NL].
Proof.
  intros t. assert (H : t !! "name" = None) by reflexivity.
  split; [exact H|].
  exact (proj1 (threat_defaults 2 t) H).
Defined.

Example strftime_Ymd_pads : strftime_Ymd {| year := 2025; month := 3; day := 7 |} = lit "2025-03-07".
Proof. reflexivity. Qed.

(* ------------------------------------------------------------------ *)
(** * Further properties of format_threat_summary and main *)

Lemma dict_get_insert_ne (d : dict) k k' v dflt :
  k <> k' -> dict_get (<[k:=v]> d) k' dflt = dict_get d k' dflt.
Proof. intros H. unfold dict_get, dict in *. by rewrite lookup_insert_ne. Qed.

Lemma dict_index_insert_ne (d : dict) k k' v :
  k <> k' -> dict_index (<[k:=v]> d) k' = dict_index d k'.
Proof. intros H. unfold dict_index, dict in *. by rewrite lookup_insert_ne. Qed.

(** Only the first 5 threats and the first 5 CVEs influence the result:
    records after them are never read, so they can neither change the
    text nor make the call raise. *)
Theorem format_only_first_five (now : clock) (threats cves : list dict)
    (date_str : pyval) :
  format_threat_summary now threats cves date_str =
  format_threat_summary now (firstn 5 threats) (firstn 5 cves) date_str.
Proof.
  assert (Ht : threats_section threats = threats_section (firstn 5 threats)).
  { unfold threats_section. by rewrite firstn_firstn, Nat.min_id. }
  assert (Hc : cves_section cves = cves_section (firstn 5 cves)).
  { destruct cves as [|c cves']; [done|].
    unfold cves_section. cbn [firstn]. rewrite firstn_firstn. done. }
  unfold format_threat_summary, format_chunks. by rewrite Ht, Hc.
Qed.

Lemma cve_chunk_None_iff c : cve_chunk c = None <-> desc_sliceable c = false.
Proof.
  unfold cve_chunk, desc_sliceable, dict_get, dict in *.
  destruct (c !! "desc") as [[s| |]|]; cbn; split; intros H;
    try discriminate; reflexivity.
Qed.

(** The call raises exactly when one of the first 5 CVEs has a [desc]
    that is present and not a string (an [int] or [None]). *)
Theorem format_fails_iff (now : clock) (threats cves : list dict)
    (date_str : pyval) :
  format_threat_summary now threats cves date_str = None <->
  exists c, c ∈ firstn 5 cves /\ desc_sliceable c = false.
Proof.
  destruct (threats_section_some threats) as [ts Hts].
  unfold format_threat_summary, format_chunks. rewrite Hts.
  cbn [mbind option_bind].
  rewrite <- Exists_exists.
  destruct cves as [|c cves'].
  - cbn. split; [done|]. intros H. inversion H.
  - unfold cves_section.
    destruct (mapM cve_chunk (firstn 5 (c :: cves'))) as [l|] eqn:Hm; cbn.
    + split; [done|]. intros Hex.
      apply mapM_Some_1 in Hm.
      apply Exists_exists in Hex as (x & Hx & Hf).
      apply Forall2_Forall_l with (Q := fun x => exists y, cve_chunk x = Some y) in Hm.
      * rewrite Forall_forall in Hm. destruct (Hm x Hx) as [y Hy].
        apply cve_chunk_None_iff in Hf. congruence.
      * apply Forall_true. intros y. clear. intros x' Hxy. eauto.
    + split; [intros _|done].
      apply mapM_None_1 in Hm.
      eapply Exists_impl; [exact Hm|]. intros x Hx. by apply cve_chunk_None_iff.
Qed.

(** A key the code does not read ([name], [severity], [target], [vector],
    [iocs], [url]) can be added to a threat without changing its entry. *)
Theorem threat_chunks_extra_key (i : nat) (threat : dict) (k : string)
    (v : pyval) (Hk : k ∉ threat_keys) :
  threat_chunks i (<[k:=v]> threat) = threat_chunks i threat.
Proof.
  unfold threat_keys in Hk. rewrite !elem_of_cons in Hk.
  assert (Hn : k <> "name") by tauto. assert (Hs : k <> "severity") by tauto.
  assert (Ht : k <> "target") by tauto. assert (Hv : k <> "vector") by tauto.
  assert (Hi : k <> "iocs") by tauto. assert (Hu : k <> "url") by tauto.
  unfold threat_chunks, threat_title_chunk, target_chunk, vector_chunk,
    source_chunk.
  rewrite !dict_get_insert_ne, dict_index_insert_ne by done. done.
Qed.

Lemma threat_chunks_extra_key_witness :
  ("first_seen" ∉ threat_keys) /\
  threat_chunks 1 (<["first_seen" := PInt 2024]> (mk_dict [("name", PStr (lit "X"))])) =
  threat_chunks 1 (mk_dict [("name", PStr (lit "X"))]).
Proof.
  assert (H : "first_seen" ∉ threat_keys).
  { apply (bool_decide_unpack _). vm_compute. reflexivity. }
  split; [exact H|].
  exact (threat_chunks_extra_key 1 _ "first_seen" (PInt 2024) H).
Defined.

(** A key the code does not read ([id], [desc], [cvss]) can be added to a
    CVE without changing its line or making it raise. *)
Theorem cve_chunk_extra_key (cve : dict) (k : string) (v : pyval)
    (Hk : k ∉ cve_keys) :
  cve_chunk (<[k:=v]> cve) = cve_chunk cve.
Proof.
  unfold cve_keys in Hk. rewrite !elem_of_cons in Hk.
  assert (Hi : k <> "id") by tauto. assert (Hd : k <> "desc") by tauto.
  assert (Hc : k <> "cvss") by tauto.
  unfold cve_chunk. rewrite !dict_get_insert_ne by done. done.
Qed.

Lemma cve_chunk_extra_key_witness :
  ("published" ∉ cve_keys) /\
  cve_chunk (<["published" := PInt 2025]> (mk_dict [("id", PStr (lit "CVE-1"))])) =
  cve_chunk (mk_dict [("id", PStr (lit "CVE-1"))]).
Proof.
  assert (H : "published" ∉ cve_keys).
  { apply (bool_decide_unpack _). vm_compute. reflexivity. }
  split; [exact H|].
  exact (cve_chunk_extra_key _ "published" (PInt 2025) H).
Defined.

(** Descriptions that agree on their first 80 characters give the same CVE
    line: the characters after the 80th are never shown. *)
Theorem cve_chunk_desc_first_80 (cve : dict) (s1 s2 : pystr)
    (Hpre : firstn 80 s1 = firstn 80 s2) :
  cve_chunk (<["desc" := PStr s1]> cve) = cve_chunk (<["desc" := PStr s2]> cve).
Proof.
  unfold cve_chunk.
  rewrite !(dict_get_insert_ne _ "desc" "id"), !(dict_get_insert_ne _ "desc" "cvss")
    by done.
  unfold dict_get, dict in *. rewrite !lookup_insert_eq. cbn. by rewrite Hpre.
Qed.

Lemma cve_chunk_desc_first_80_witness :
  firstn 80 (repeat 97%N 80 ++ lit "b") = firstn 80 (repeat 97%N 80 ++ lit "cd") /\
  cve_chunk (<["desc" := PStr (repeat 97%N 80 ++ lit "b")]> ∅) =
  cve_chunk (<["desc" := PStr (repeat 97%N 80 ++ lit "cd")]> ∅).
Proof.
  assert (H : firstn 80 (repeat 97%N 80 ++ lit "b") =
              firstn 80 (repeat 97%N 80 ++ lit "cd")) by reflexivity.
  split; [exact H|]. exact (cve_chunk_desc_first_80 ∅ _ _ H).
Defined.

(** With no threats and no CVEs the summary is the header, the
    ["HOT THREATS"] line and the closing line, nothing else. *)
Theorem format_empty_inputs (now : clock) (date_str : pyval) :
  format_threat_summary now [] [] date_str =
    Some (header_chunk (effective_date now date_str) ++ hot_threats_chunk ++
          closing_chunk).
Proof.
  unfold format_threat_summary.
  rewrite (format_chunks_split now [] [] date_str [] []) by reflexivity.
  cbn [app concat]. by rewrite (app_nil_r closing_chunk).
Qed.

(** Every successful summary starts with the header (with the effective
    date) and the ["HOT THREATS"] line, and ends with the closing line. *)
Theorem format_starts_and_ends (now : clock) (threats cves : list dict)
    (date_str : pyval) (s : pystr)
    (H : format_threat_summary now threats cves date_str = Some s) :
  exists mid, s = header_chunk (effective_date now date_str) ++
                  hot_threats_chunk ++ mid ++ closing_chunk.
Proof.
  destruct (threats_section threats) as [ts|] eqn:Hts.
  2:{ unfold format_threat_summary, format_chunks in H. by rewrite Hts in H. }
  destruct (cves_section cves) as [cs|] eqn:Hcs.
  2:{ unfold format_threat_summary, format_chunks in H. by rewrite Hts, Hcs in H. }
  assert (Hs : concat ([header_chunk (effective_date now date_str);
                        hot_threats_chunk] ++ ts ++ cs ++ [closing_chunk]) = s).
  { unfold format_threat_summary in H.
    rewrite (format_chunks_split now threats cves date_str ts cs Hts Hcs) in H.
    congruence. }
  subst s. exists (concat ts ++ concat cs).
  assert (E1 : forall a b : pystr, concat [a; b] = a ++ b)
    by (intros; cbn; by rewrite app_nil_r).
  assert (E2 : forall a : pystr, concat [a] = a)
    by (intros; cbn; by rewrite app_nil_r).
  rewrite !List.concat_app, E1, E2, <- !app_assoc. reflexivity.
Qed.

Lemma format_starts_and_ends_witness :
  let s := match format_threat_summary clock_2025 sample_threats sample_cves
                   date_2025 with Some s => s | None => [] end in
  format_threat_summary clock_2025 sample_threats sample_cves date_2025 = Some s /\
  exists mid, s = header_chunk (effective_date clock_2025 date_2025) ++
                  hot_threats_chunk ++ mid ++ closing_chunk.
Proof.
  intros s.
  assert (H : format_threat_summary clock_2025 sample_threats sample_cves
                date_2025 = Some s) by (vm_compute; reflexivity).
  split; [exact H|]. exact (format_starts_and_ends _ _ _ _ _ H).
Defined.

(** [main] exits with status 0 whatever the arguments: the sample records
    never make the formatter raise. *)
Theorem main_exit_zero (now : clock) (argv : list pystr) :
  snd (main now argv) = 0.
Proof.
  destruct argv as [|p [|a1 rest]]; [done|done|].
  unfold main. destruct (bool_decide _); [|done].
  destruct (threats_section sample_threats) as [ts|] eqn:Hts;
    [|vm_compute in Hts; discriminate].
  destruct (cves_section sample_cves) as [cs|] eqn:Hcs;
    [|vm_compute in Hcs; discriminate].
  unfold format_threat_summary.
  by rewrite (format_chunks_split now _ _ PNone ts cs Hts Hcs).
Qed.

Lemma threat_chunks_length i t b :
  threat_chunks i t = Some b ->
  length b = 4 + (if truthy (dict_get t "iocs" PNone) then 1 else 0).
Proof.
  unfold threat_chunks. destruct (truthy _).
  - unfold dict_index. destruct (t !! "iocs"); [|done]. by intros [= <-].
  - by intros [= <-].
Qed.

Lemma threat_blocks_length (i : nat) (l : list dict) (blocks : list (list pystr)) :
  mapM (fun '(i, t) => threat_chunks i t) (enumerate i l) = Some blocks ->
  length (concat blocks) =
    4 * length l +
    length (filter (fun t => truthy (dict_get t "iocs" PNone) = true) l).
Proof.
  revert i blocks.
  induction l as [|t l IH]; intros i blocks Hm.
  - cbn in Hm. injection Hm as <-. reflexivity.
  - cbn in Hm. destruct (threat_chunks i t) as [b|] eqn:Hb; [|done].
    cbn in Hm. destruct (mapM _ (enumerate (S i) l)) as [bs|] eqn:Hbs; [|done].
    injection Hm as <-. cbn [concat]. rewrite length_app.
    rewrite (threat_chunks_length _ _ _ Hb), (IH _ _ Hbs), filter_cons.
    cbn [length]. case_decide as Hd.
    + rewrite Hd. cbn [length]. lia.
    + apply not_true_is_false in Hd. rewrite Hd. lia.
Qed.

(** The threats section has 4 lines per rendered threat ([min(5, n)] of
    them) plus one IOCs line for each rendered threat whose [iocs] is
    truthy. *)
Theorem threats_section_length (threats : list dict) (ts : list pystr)
    (H : threats_section threats = Some ts) :
  length ts = 4 * Nat.min 5 (length threats) +
              length (filter (fun t => truthy (dict_get t "iocs" PNone) = true)
                        (firstn 5 threats)).
Proof.
  unfold threats_section in H.
  destruct (mapM _ _) as [blocks|] eqn:Hm; [|done]. injection H as <-.
  rewrite <- length_firstn. exact (threat_blocks_length _ _ _ Hm).
Qed.

Lemma threats_section_length_witness :
  let ts := match threats_section sample_threats with Some ts => ts | None => [] end in
  threats_section sample_threats = Some ts /\
  length ts = 4 * Nat.min 5 (length sample_threats) +
              length (filter (fun t => truthy (dict_get t "iocs" PNone) = true)
                        (firstn 5 sample_threats)).
Proof.
  intros ts. assert (H : threats_section sample_threats = Some ts)
    by (vm_compute; reflexivity).
  split; [exact H|]. exact (threats_section_length _ _ H).
Defined.

(** The CVE section is empty when there are no CVEs; otherwise it is the
    ["NEW CVEs"] line followed by one line for each of the first
    [min(5, n)] CVEs. *)
Theorem cves_section_length (cves : list dict) (cs : list pystr)
    (H : cves_section cves = Some cs) :
  length cs = match cves with [] => 0 | _ => 1 + Nat.min 5 (length cves) end.
Proof.
  destruct cves as [|c cves']; [by injection H as <-|].
  unfold cves_section in H.
  destruct (mapM cve_chunk (firstn 5 (c :: cves'))) as [l|] eqn:Hm; [|done].
  injection H as <-. apply mapM_Some_1, Forall2_length in Hm.
  cbn [length]. rewrite <- Hm, length_firstn. done.
Qed.

Lemma cves_section_length_witness :
  let cs := match cves_section sample_cves with Some cs => cs | None => [] end in
  cves_section sample_cves = Some cs /\
  length cs = match sample_cves with [] => 0 | _ => 1 + Nat.min 5 (length sample_cves) end.
Proof.
  intros cs. assert (H : cves_section sample_cves = Some cs)
    by (vm_compute; reflexivity).
  split; [exact H|]. exact (cves_section_length _ _ H).
Defined.
